(** * dune-client: the base router and the table endpoints

    A shallow embedding of [dune_client/api/base.py] and
    [dune_client/api/table.py].  Python dictionaries are finite maps,
    exceptions are an inductive type, and the effects of the code (the
    requests it sends, the file handles it opens) are threaded through an
    explicit world. *)

From Stdlib Require Import ZArith Ascii String Floats.SpecFloat.
From stdpp Require Import gmap strings list fin_maps.

Set Warnings "-register-all".

Local Open Scope string_scope.
Local Open Scope list_scope.

(** ** Values *)

(** What [json.loads] produces: [None], [bool], [int], [float], [str],
    [list] and [dict] with string keys. *)
Inductive json : Type :=
| JNull
| JBool (b : bool)
| JInt (n : Z)
| JFloat (f : spec_float)
| JStr (s : string)
| JList (l : list json)
| JObject (m : gmap string json).

(** Python's [bool(x)] on such a value. *)
Definition truthy (v : json) : bool :=
  match v with
  | JNull => false
  | JBool b => b
  | JInt n => negb (Z.eqb n 0)
  | JFloat f => match f with S754_zero _ => false | _ => true end
  | JStr s => match s with EmptyString => false | String _ _ => true end
  | JList l => match l with [] => false | _ :: _ => true end
  | JObject m => negb (bool_decide (m = ∅))
  end.

(** ** Exceptions *)

(** The three ways the code meets a [TypeError]: a keyword the callee does
    not declare, a required parameter left unbound, and a subscript on a
    value whose type does not take a string index. *)
Inductive type_error : Type :=
| UnexpectedKeyword (callee keyword : string)
| MissingArgument (callee parameter : string)
| BadSubscript (container : string).

(** Modelled from the spec: [DuneError], which is declared in
    [dune_client.models] and is not among the sources.  The spec has a
    domain error carry the offending response payload, the name of the
    operation's response and the originating key-lookup failure; these are
    the three arguments the call sites in [table.py] pass.

    The other constructors are the built-in exceptions and those of
    [requests] that the two modules can raise or let through.
    [RequestException] stands for a failure inside [requests] before a
    response exists (connection refused, timeout); [HTTPError] is what
    [raise_for_status] raises and records the status of the response.
    A [ValueError] holds its message and, when it was raised [from] another
    exception, that exception. *)
Inductive exn : Type :=
| TypeError (why : type_error)
| KeyError (key : string)
| OSError (path : string)
| UnicodeEncodeError (text : string)
| RequestException (detail : string)
| JSONDecodeError
| RecursionError
| HTTPError (status : Z)
| ValueError (msg : string) (cause : option exn)
| DuneError (data : json) (response_class : string) (err : exn).

Inductive outcome (A : Type) : Type :=
| Ok (a : A)
| Raise (e : exn).
Arguments Ok {A} a.
Arguments Raise {A} e.

Definition type_name (v : json) : string :=
  match v with
  | JNull => "NoneType"
  | JBool _ => "bool"
  | JInt _ => "int"
  | JFloat _ => "float"
  | JStr _ => "str"
  | JList _ => "list"
  | JObject _ => "dict"
  end.

(** Python's [v[key]] for a string key.  Only a [dict] can be indexed by
    a string: a missing key is a [KeyError], and every other JSON type
    rejects the subscript with a [TypeError]. *)
Definition subscript (v : json) (key : string) : outcome json :=
  match v with
  | JObject m =>
      match m !! key with
      | Some x => Ok x
      | None => Raise (KeyError key)
      end
  | _ => Raise (TypeError (BadSubscript (type_name v)))
  end.

(** ** [str.split] with a one-character separator and [l[-1]] *)

Fixpoint split (sep : Ascii.ascii) (s : string) : list string :=
  match s with
  | EmptyString => [EmptyString]
  | String c rest =>
      if Ascii.eqb c sep
      then EmptyString :: split sep rest
      else match split sep rest with
           | piece :: pieces => String c piece :: pieces
           | [] => [String c EmptyString]
           end
  end.

(** [l[-1]]; [split] never returns the empty list. *)
Definition last_item (l : list string) : string := List.last l EmptyString.

(** ** The [requests] library, as far as the code uses it *)

Inductive http_method : Type := GET | POST | PATCH.

(** One call of [requests.get], [requests.post] or [requests.request]:
    the keyword arguments the code passes.  [JNull] is Python's [None],
    the value of an argument that is left out. *)
Record request : Type := {
  req_method : http_method;
  req_url : string;
  req_headers : gmap string string;
  req_params : json;
  req_json : json;
  req_timeout : Z
}.

(** The ways [Response.json()] fails: the body is not JSON and the decoder
    says so; the body nests deeper than the interpreter recurses (a long
    run of opening brackets); the body has an integer of more digits than
    [int] converts (4300 by default). *)
Inductive json_failure : Type :=
| NotJSON
| NestedTooDeep
| IntegerTooLong.

(** What [Response.json()] does on a response. *)
Inductive decoding : Type :=
| Decodes (v : json)
| Fails (how : json_failure).

(** A [requests.Response]: its status and what decoding its body gives. *)
Record response : Type := {
  status_code : Z;
  body_decoding : decoding
}.

(** What the body decodes to, if it decodes. *)
Definition body_json (r : response) : option json :=
  match body_decoding r with
  | Decodes v => Some v
  | Fails _ => None
  end.

(** The exception of each failure: the decode error of [requests], which
    is a [json.JSONDecodeError]; [RecursionError]; and the plain
    [ValueError] of the integer conversion.  Only the first is a
    [JSONDecodeError]. *)
Definition json_failure_exn (how : json_failure) : exn :=
  match how with
  | NotJSON => JSONDecodeError
  | NestedTooDeep => RecursionError
  | IntegerTooLong =>
      ValueError "Exceeds the limit (4300 digits) for integer string conversion" None
  end.

Inductive reply : Type :=
| NoReply (e : exn)
| Reply (r : response).

(** [Response.json()]: the decoded body, or the exception of the failure.
    Of these the handler's [except JSONDecodeError] catches the decode
    error alone. *)
Definition response_json_of (r : response) : outcome json :=
  match body_decoding r with
  | Decodes v => Ok v
  | Fails how => Raise (json_failure_exn how)
  end.

(** [Response.raise_for_status()]: a client error (4xx) or a server error
    (5xx) raises, every other status returns [None]. *)
Definition raise_for_status (r : response) : outcome unit :=
  if bool_decide (400 ≤ status_code r < 600)%Z
  then Raise (HTTPError (status_code r))
  else Ok tt.

(** ** The world and the monad of effects *)

(** Why [open(path, "rb")] refuses a path: the operating system does (no
    such file, no permission, a directory); the path has a NUL character;
    the path cannot be encoded for the file system (a lone surrogate). *)
Inductive open_refusal : Type :=
| RefusedByOS
| EmbeddedNul
| NotEncodable.

(** The exception of each refusal: [OSError] for the first, a plain
    [ValueError] for the second, [UnicodeEncodeError] for the third. *)
Definition open_refusal_exn (why : open_refusal) (path : string) : exn :=
  match why with
  | RefusedByOS => OSError path
  | EmbeddedNul => ValueError "embedded null byte" None
  | NotEncodable => UnicodeEncodeError path
  end.

(** Everything outside the client: how the remote end answers a request,
    what opening a path for reading gives ([None] when it opens), the file
    handles that are open, and the requests sent so far (oldest first). *)
Record world : Type := {
  server : request → reply;
  files : string → option open_refusal;
  open_files : gset nat;
  next_fd : nat;
  sent : list request
}.

(** [open(path, "rb")] succeeds. *)
Definition readable (w : world) (path : string) : bool :=
  match files w path with
  | None => true
  | Some _ => false
  end.

Definition M (A : Type) : Type := world → outcome A * world.

#[global] Instance M_ret : MRet M := λ A a w, (Ok a, w).

#[global] Instance M_bind : MBind M := λ A B f m w,
  match m w with
  | (Ok a, w') => f a w'
  | (Raise e, w') => (Raise e, w')
  end.

Definition raise {A : Type} (e : exn) : M A := λ w, (Raise e, w).

Definition lift {A : Type} (o : outcome A) : M A := λ w, (o, w).

(** [try: body except <class> as err: handler]: [handler e] is [None]
    when [e] is not of a class the clause names. *)
Definition try_except {A : Type} (body : M A) (handler : exn → option (M A)) : M A :=
  λ w, match body w with
       | (Ok a, w') => (Ok a, w')
       | (Raise e, w') =>
           match handler e with
           | Some h => h w'
           | None => (Raise e, w')
           end
       end.

Definition record_sent (req : request) (w : world) : world :=
  {| server := server w; files := files w;
     open_files := open_files w; next_fd := next_fd w;
     sent := sent w ++ [req] |}.

Definition record_open (w : world) : world :=
  {| server := server w; files := files w;
     open_files := {[ next_fd w ]} ∪ open_files w;
     next_fd := S (next_fd w); sent := sent w |}.

Definition record_closed (fd : nat) (w : world) : world :=
  {| server := server w; files := files w;
     open_files := open_files w ∖ {[ fd ]};
     next_fd := next_fd w; sent := sent w |}.

(** The request leaves the client, then the remote end answers or the
    transport fails. *)
Definition http_send (req : request) : M response :=
  λ w, match server w req with
       | NoReply e => (Raise e, record_sent req w)
       | Reply r => (Ok r, record_sent req w)
       end.

(** [open(path, "rb")]: a fresh handle, or the exception of the refusal
    and no handle. *)
Definition open_rb (path : string) : M nat :=
  λ w, match files w path with
       | None => (Ok (next_fd w), record_open w)
       | Some why => (Raise (open_refusal_exn why path), w)
       end.

Definition close (fd : nat) : M unit :=
  λ w, (Ok tt, record_closed fd w).

(** [try: body finally: cleanup], with a cleanup that cannot fail. *)
Definition finally {A : Type} (body : M A) (cleanup : M unit) : M A :=
  λ w, let '(r, w') := body w in (r, (cleanup w').2).

(** [with open(path, "rb") as data: body]: the handle is closed when the
    body is left, by a return or by an exception, which then goes on. *)
Definition with_open {A : Type} (path : string) (body : nat → M A) : M A :=
  data ← open_rb path; finally (body data) (close data).

(** ** Calls with keyword arguments *)

(** The keywords that occur at the call sites of the two modules, each
    with the type of the values passed under it. *)
Inductive keyword : Type := kw_route | kw_params | kw_raw | kw_headers | kw_data.

#[global] Instance keyword_eq_dec : EqDecision keyword.
Proof. solve_decision. Defined.

Definition keyword_name (k : keyword) : string :=
  match k with
  | kw_route => "route"
  | kw_params => "params"
  | kw_raw => "raw"
  | kw_headers => "headers"
  | kw_data => "data"
  end.

Definition kw_type (k : keyword) : Type :=
  match k with
  | kw_route => string
  | kw_params => json
  | kw_raw => bool
  | kw_headers => gmap string (option string)
  | kw_data => nat
  end.

Definition kwarg : Type := { k : keyword & kw_type k }.

Definition kw (k : keyword) (v : kw_type k) : kwarg := existT k v.

Fixpoint kw_lookup (k : keyword) (args : list kwarg) : option (kw_type k) :=
  match args with
  | [] => None
  | existT k' v :: rest =>
      match decide (k' = k) with
      | left e => Some (eq_rect k' kw_type v k e)
      | right _ => kw_lookup k rest
      end
  end.

Definition kw_given (k : keyword) (args : list kwarg) : bool :=
  bool_decide (k ∈ (projT1 <$> args)).

(** A method bound to its instance: its name, the parameters without and
    with a default, and its body on the keywords it was called with. *)
Record pymethod (A : Type) : Type := {
  fn_name : string;
  fn_required : list keyword;
  fn_optional : list keyword;
  fn_body : list kwarg → M A
}.
Arguments fn_name {A} _.
Arguments fn_required {A} _.
Arguments fn_optional {A} _.
Arguments fn_body {A} _ _.

(** Python binds the keywords before the body runs: the first keyword the
    callee does not declare is a [TypeError], and so is a parameter without
    default that is left unbound. *)
Definition call {A : Type} (f : pymethod A) (args : list kwarg) : M A :=
  match List.find (λ k, bool_decide (k ∉ fn_required f ++ fn_optional f))
                  (projT1 <$> args) with
  | Some k => raise (TypeError (UnexpectedKeyword (fn_name f) (keyword_name k)))
  | None =>
      match List.find (λ k, negb (kw_given k args)) (fn_required f) with
      | Some k => raise (TypeError (MissingArgument (fn_name f) (keyword_name k)))
      | None => fn_body f args
      end
  end.

(** ** [base.py] *)

(** The fields [__init__] stores.  [self.logger] only receives debug
    messages, which reach neither a result nor a request, and is left out
    together with the [logger.debug] statements. *)
Record client : Type := {
  token : string;
  client_version : string;
  performance : string
}.

Inductive get_result : Type :=
| RawResponse (r : response)
| Decoded (v : json).

Module BaseDuneClient.

Definition BASE_URL : string := "https://api.dune.com".
Definition DEFAULT_TIMEOUT : Z := 10.

(** [__init__(api_key)], with the defaults of the other two parameters *)
Definition init (api_key : string) : client :=
  {| token := api_key; client_version := "v1"; performance := "medium" |}.

Definition api_version (self : client) : string :=
  "/api/" +:+ client_version self.

Definition default_headers (self : client) : gmap string string :=
  {[ "x-dune-api-key" := token self ]}.

(** [from_env()], on the process environment [os.environ]: the lookup
    [os.environ["DUNE_API_KEY"]] raises [KeyError] when the variable is
    not set. *)
Definition from_env (environ : gmap string string) : outcome client :=
  match environ !! "DUNE_API_KEY" with
  | Some api_key => Ok (init api_key)
  | None => Raise (KeyError "DUNE_API_KEY")
  end.

End BaseDuneClient.

Module BaseRouter.
Import BaseDuneClient.

Definition _handle_response (self : client) (resp : response) : M json :=
  try_except
    (response_json ← lift (response_json_of resp);
     mret response_json)
    (λ err, match err with
            | JSONDecodeError =>
                Some (lift (raise_for_status resp);;
                      raise (ValueError "Unreachable since previous line raises"
                                        (Some err)))
            | _ => None
            end).

Definition _route_url (self : client) (route : string) : string :=
  BASE_URL +:+ api_version self +:+ route.

Definition _get (self : client) (route : string) (params : json) (raw : bool)
  : M get_result :=
  let url := _route_url self route in
  resp ← http_send {| req_method := GET; req_url := url;
                      req_headers := default_headers self;
                      req_timeout := DEFAULT_TIMEOUT;
                      req_params := params; req_json := JNull |};
  if raw then mret (RawResponse resp)
  else v ← _handle_response self resp; mret (Decoded v).

Definition _post (self : client) (route : string) (params : json) : M json :=
  let url := _route_url self route in
  resp ← http_send {| req_method := POST; req_url := url;
                      req_json := params;
                      req_headers := default_headers self;
                      req_timeout := DEFAULT_TIMEOUT;
                      req_params := JNull |};
  _handle_response self resp.


(** [self._post] as the object a keyword call is made on:
    [def _post(self, route: str, params: Optional[Any] = None)].  The body
    runs only after [call] has bound [route], and [params] defaults to
    [None]. *)
Definition _post_method (self : client) : pymethod json :=
  {| fn_name := "_post";
     fn_required := [kw_route];
     fn_optional := [kw_params];
     fn_body := λ args,
       _post self (default "" (kw_lookup kw_route args))
                  (default JNull (kw_lookup kw_params args)) |}.

End BaseRouter.

(** ** [table.py] *)

Module TableAPI.

(** The methods reach the router through [self._post], looked up on the
    instance when the call is made: [self_post] is what the lookup finds.
    [TableAPI] defines no [_post] of its own, so on an instance of the
    class as written it is [BaseRouter._post]. *)
Section Methods.
Variable self_post : pymethod json.

Definition upload_csv_via (table_name data description : string)
    (is_private : bool) : M bool :=
  response_json ← call self_post
    [ kw kw_route "/table/upload/csv";
      kw kw_params
         (JObject (<[ "table_name" := JStr table_name ]>
                  (<[ "description" := JStr description ]>
                  (<[ "data" := JStr data ]>
                  (<[ "is_private" := JBool is_private ]> ∅))))) ];
  try_except
    (success ← lift (subscript response_json "success");
     mret (truthy success))
    (λ err, match err with
            | KeyError _ =>
                Some (raise (DuneError response_json "UploadCsvResponse" err))
            | _ => None
            end).

(** A schema is a list of dictionaries from strings to strings. *)
Definition schema_json (schema : list (gmap string string)) : json :=
  JList ((λ column, JObject (JStr <$> column)) <$> schema).

Definition create_table_via (namespace table_name : string)
    (schema : list (gmap string string)) (description : string) : M json :=
  let payload :=
    JObject (<[ "schema" := schema_json schema ]>
            (<[ "description" := JStr description ]> ∅)) in
  response_json ← call self_post
    [ kw kw_route ("/table/" +:+ namespace +:+ "/" +:+ table_name +:+ "/create");
      kw kw_params payload ];
  try_except
    (mret response_json)
    (λ err, match err with
            | KeyError _ =>
                Some (raise (DuneError response_json "CreateTableResponse" err))
            | _ => None
            end).

(** The value under ["Content-Type"] in the [headers] dictionary that
    [insert_table] builds. *)
Definition content_type (file_extension : string) : option string :=
  if bool_decide (file_extension = "csv") then Some "text/csv"
  else if bool_decide (file_extension ∈ ["json"; "jsonl"])
       then Some "application/x-ndjson"
       else None.

Definition insert_table_via (namespace table_name path : string) : M json :=
  let file_extension := last_item (split "."%char path) in
  with_open path (λ data,
    response_json ← call self_post
      [ kw kw_route ("/table/" +:+ namespace +:+ "/" +:+ table_name +:+ "/insert");
        kw kw_headers {[ "Content-Type" := content_type file_extension ]};
        kw kw_data data ];
    try_except
      (mret response_json)
      (λ err, match err with
              | KeyError _ =>
                  Some (raise (DuneError response_json "InsertTableResponse" err))
              | _ => None
              end)).

End Methods.

(** The methods on an instance of the class as written. *)
Definition upload_csv (self : client) :=
  upload_csv_via (BaseRouter._post_method self).
Definition create_table (self : client) :=
  create_table_via (BaseRouter._post_method self).
Definition insert_table (self : client) :=
  insert_table_via (BaseRouter._post_method self).

End TableAPI.

(** ** Vocabulary of the statements *)

(** The request [_post] builds for a route and a body. *)
Definition post_request (self : client) (route : string) (params : json) : request :=
  {| req_method := POST;
     req_url := BaseRouter._route_url self route;
     req_headers := BaseDuneClient.default_headers self;
     req_params := JNull;
     req_json := params;
     req_timeout := BaseDuneClient.DEFAULT_TIMEOUT |}.

(** The body [upload_csv] posts. *)
Definition upload_csv_params (table_name data description : string)
    (is_private : bool) : json :=
  JObject (<[ "table_name" := JStr table_name ]>
          (<[ "description" := JStr description ]>
          (<[ "data" := JStr data ]>
          (<[ "is_private" := JBool is_private ]> ∅)))).

(** The request [upload_csv] sends through [_post]. *)
Definition upload_csv_request (self : client) (table_name data description : string)
    (is_private : bool) : request :=
  post_request self "/table/upload/csv"
    (upload_csv_params table_name data description is_private).

(** The JSON values Python counts as false: [None], [False], the integer
    and the float zero, and the empty string, list and dictionary. *)
Definition falsy (v : json) : Prop :=
  v = JNull ∨ v = JBool false ∨ v = JInt 0
  ∨ (∃ sign, v = JFloat (S754_zero sign))
  ∨ v = JStr "" ∨ v = JList [] ∨ v = JObject ∅.


(** The exceptions that come from the transport or from the status of a
    response, and the one that reports a body that is not JSON. *)
Definition is_transport_error (e : exn) : bool :=
  match e with
  | HTTPError _ | RequestException _ => true
  | _ => false
  end.

Definition is_decode_error (e : exn) : bool :=
  match e with
  | JSONDecodeError => true
  | _ => false
  end.

Definition is_domain_error (e : exn) : bool :=
  match e with
  | DuneError _ _ _ => true
  | _ => false
  end.

(** The requests [_get] and [_patch] build. *)
Definition get_request (self : client) (route : string) (params : json) : request :=
  {| req_method := GET;
     req_url := BaseRouter._route_url self route;
     req_headers := BaseDuneClient.default_headers self;
     req_params := params;
     req_json := JNull;
     req_timeout := BaseDuneClient.DEFAULT_TIMEOUT |}.


(** The route and the body [create_table] posts. *)
Definition create_table_route (namespace table_name : string) : string :=
  "/table/" +:+ namespace +:+ "/" +:+ table_name +:+ "/create".

Definition create_table_payload (schema : list (gmap string string))
    (description : string) : json :=
  JObject (<[ "schema" := TableAPI.schema_json schema ]>
          (<[ "description" := JStr description ]> ∅)).

Definition create_table_request (self : client) (namespace table_name : string)
    (schema : list (gmap string string)) (description : string) : request :=
  post_request self (create_table_route namespace table_name)
    (create_table_payload schema description).

(** The keywords [insert_table] calls [self._post] with, [data] being the
    handle of the opened file. *)
Definition insert_table_kwargs (namespace table_name path : string) (data : nat)
    : list kwarg :=
  [ kw kw_route ("/table/" +:+ namespace +:+ "/" +:+ table_name +:+ "/insert");
    kw kw_headers
       {[ "Content-Type" := TableAPI.content_type (last_item (split "."%char path)) ]};
    kw kw_data data ].

(** A method declares every keyword of [args] and [args] binds every
    parameter it requires. *)
Definition binds {A : Type} (f : pymethod A) (args : list kwarg) : bool :=
  forallb (λ k, bool_decide (k ∈ fn_required f ++ fn_optional f)) (projT1 <$> args)
  && forallb (λ k, kw_given k args) (fn_required f).

(** The character [c] occurs in [s]. *)
Fixpoint occurs (c : Ascii.ascii) (s : string) : bool :=
  match s with
  | EmptyString => false
  | String c' rest => Ascii.eqb c' c || occurs c rest
  end.

(** Every open handle was handed out before: the next one is fresh. *)
Definition handles_fresh (w : world) : Prop :=
  ∀ fd, fd ∈ open_files w → fd < next_fd w.

(** ** Worlds and methods to run the code on *)

(** A world that answers by [how], where the operating system lets the
    paths of [can_open] be opened and refuses the others. *)
Definition answering (how : request → reply) (can_open : string → bool) : world :=
  {| server := how;
     files := λ path, if can_open path then None else Some RefusedByOS;
     open_files := ∅; next_fd := 3; sent := [] |}.

(** A world in which [open] refuses every path for the reason [why]. *)
Definition refusing (how : request → reply) (why : open_refusal) : world :=
  {| server := how; files := λ _, Some why;
     open_files := ∅; next_fd := 3; sent := [] |}.

Definition json_reply (status : Z) (v : json) : request → reply :=
  λ _, Reply {| status_code := status; body_decoding := Decodes v |}.

Definition text_reply (status : Z) : request → reply :=
  λ _, Reply {| status_code := status; body_decoding := Fails NotJSON |}.

(** An answer whose body makes the decoder fail in the way [how]. *)
Definition broken_reply (status : Z) (how : json_failure) : request → reply :=
  λ _, Reply {| status_code := status; body_decoding := Fails how |}.

Definition alice : client := BaseDuneClient.init "secret".

(** A [_post] that takes [headers] and [data] as well and answers without
    sending anything, as a test double would. *)
Definition accepting_post (answer : outcome json) : pymethod json :=
  {| fn_name := "_post";
     fn_required := [kw_route];
     fn_optional := [kw_params; kw_headers; kw_data];
     fn_body := λ _, lift answer |}.

Definition failing (e : exn) : request → reply := λ _, NoReply e.

(** A [_post] that takes [headers] and [data] and answers with the content
    type it was handed, [null] standing for [None]. *)
Definition echoing_post : pymethod json :=
  {| fn_name := "_post";
     fn_required := [kw_route];
     fn_optional := [kw_params; kw_headers; kw_data];
     fn_body := λ args,
       mret (match kw_lookup kw_headers args with
             | Some headers =>
                 match headers !! "Content-Type" with
                 | Some (Some content_type) => JStr content_type
                 | _ => JNull
                 end
             | None => JNull
             end) |}.

(** * Properties *)

(** ** Extensions *)

Example split_ex1 : split "."%char "a.b.csv" = ["a"; "b"; "csv"].
Proof. reflexivity. Qed.

Example split_ex2 : split "."%char "csv" = ["csv"].
Proof. reflexivity. Qed.

Example split_ex3 : split "."%char "dir/x." = ["dir/x"; ""].
Proof. reflexivity. Qed.

Lemma split_nonempty (sep : Ascii.ascii) (s : string) : split sep s ≠ [].
Proof.
  destruct s as [| c rest]; simpl; [discriminate |].
  destruct (Ascii.eqb c sep); [discriminate |].
  destruct (split sep rest); discriminate.
Qed.

(** ** The response handler *)

Section HandleResponse.
Variable self : client.
Implicit Types (resp : response) (w : world).

(** Every way the handler can end, by what decoding the body gives. *)
Lemma handle_response_run resp w :
  BaseRouter._handle_response self resp w =
    (match body_decoding resp with
     | Decodes v => Ok v
     | Fails NotJSON =>
         if bool_decide (400 ≤ status_code resp < 600)%Z
         then Raise (HTTPError (status_code resp))
         else Raise (ValueError "Unreachable since previous line raises"
                                (Some JSONDecodeError))
     | Fails how => Raise (json_failure_exn how)
     end, w).
Proof.
  unfold BaseRouter._handle_response, try_except, mbind, M_bind, mret, M_ret,
    lift, raise, response_json_of, raise_for_status.
  destruct (body_decoding resp) as [v | [| |]]; try reflexivity.
  simpl. case_bool_decide; reflexivity.
Qed.

(** The handler reads the response and nothing else. *)
Lemma handle_response_world resp w :
  (BaseRouter._handle_response self resp w).2 = w.
Proof. rewrite handle_response_run. reflexivity. Qed.

Lemma body_json_decodes resp v :
  body_json resp = Some v ↔ body_decoding resp = Decodes v.
Proof.
  unfold body_json. destruct (body_decoding resp) as [v' | how].
  - split; intros [= ->]; reflexivity.
  - split; discriminate.
Qed.

Lemma handle_response_decoded resp w v :
  body_json resp = Some v →
  BaseRouter._handle_response self resp w = (Ok v, w).
Proof.
  intros Hbody%body_json_decodes.
  rewrite handle_response_run, Hbody. reflexivity.
Qed.

(** After the decode error the status alone decides. *)
Lemma handle_response_undecoded resp w :
  body_decoding resp = Fails NotJSON →
  BaseRouter._handle_response self resp w =
    (match raise_for_status resp with
     | Raise e => Raise e
     | Ok _ => Raise (ValueError "Unreachable since previous line raises"
                                 (Some JSONDecodeError))
     end, w).
Proof.
  intros Hbody. rewrite handle_response_run, Hbody.
  unfold raise_for_status. case_bool_decide; reflexivity.
Qed.

End HandleResponse.

(** When [Response.json()] raises the decode error and the status is a
    client or server error (400 to 599, for instance 500),
    [_handle_response] fails with the [HTTPError] of that status, which is
    a transport error and not a decode error. *)
Lemma handle_response_error_status (self : client) (resp : response) (w : world) :
  body_decoding resp = Fails NotJSON →
  (400 ≤ status_code resp < 600)%Z →
  BaseRouter._handle_response self resp w = (Raise (HTTPError (status_code resp)), w)
  ∧ is_transport_error (HTTPError (status_code resp)) = true
  ∧ is_decode_error (HTTPError (status_code resp)) = false.
Proof.
  intros Hbody Hstatus.
  rewrite handle_response_undecoded by assumption.
  unfold raise_for_status.
  rewrite bool_decide_eq_true_2 by assumption.
  repeat split.
Qed.

Example handle_response_error_status_500 :
  BaseRouter._handle_response alice
    {| status_code := 500; body_decoding := Fails NotJSON |}
    (answering (text_reply 500) (λ _, false))
  = (Raise (HTTPError 500), answering (text_reply 500) (λ _, false)).
Proof.
  apply (handle_response_error_status alice
           {| status_code := 500; body_decoding := Fails NotJSON |}).
  - reflexivity.
  - simpl. lia.
Qed.

(** C3, on the code: status 304 is not a 2xx status, and on a 304 response
    whose body is not JSON the handler reaches the line it calls
    unreachable: it raises that [ValueError], which is neither a transport
    error nor the [HTTPError] of status 304.  A 500 response whose body
    nests too deep for the decoder ends in the [RecursionError] of the
    decoder, which is no [HTTPError] either. *)
Theorem handle_response_304_not_transport :
  let resp := {| status_code := 304; body_decoding := Fails NotJSON |} in
  let deep := {| status_code := 500; body_decoding := Fails NestedTooDeep |} in
  let w := answering (text_reply 304) (λ _, false) in
  body_json resp = None
  ∧ ¬ (200 ≤ status_code resp < 300)%Z
  ∧ (BaseRouter._handle_response alice resp w).1
    = Raise (ValueError "Unreachable since previous line raises"
                        (Some JSONDecodeError))
  ∧ (BaseRouter._handle_response alice resp w).1 ≠ Raise (HTTPError 304)
  ∧ is_transport_error
      (ValueError "Unreachable since previous line raises"
                  (Some JSONDecodeError)) = false
  ∧ body_json deep = None
  ∧ (BaseRouter._handle_response alice deep w).1 = Raise RecursionError
  ∧ is_transport_error RecursionError = false.
Proof.
  cbv zeta. split; [reflexivity |]. split; [simpl; lia |].
  rewrite !handle_response_run.
  repeat split. simpl. discriminate.
Qed.

(** C4: when the body of a response decodes as JSON, [_handle_response]
    returns the decoded value whatever the status is; a response with a
    status outside 2xx and a JSON body is returned, not raised. *)
Theorem handle_response_returns_json (self : client) (resp : response) (w : world)
    (v : json) :
  body_json resp = Some v →
  BaseRouter._handle_response self resp w = (Ok v, w).
Proof. apply handle_response_decoded. Qed.

Lemma handle_response_returns_json_404 :
  BaseRouter._handle_response alice
    {| status_code := 404;
       body_decoding := Decodes (JObject {[ "error" := JStr "Table not found" ]}) |}
    (answering (text_reply 404) (λ _, false))
  = (Ok (JObject {[ "error" := JStr "Table not found" ]}),
     answering (text_reply 404) (λ _, false)).
Proof.
  apply (handle_response_returns_json alice
           {| status_code := 404;
              body_decoding :=
                Decodes (JObject {[ "error" := JStr "Table not found" ]}) |}).
  reflexivity.
Defined.

(** C9, as the code has it: when the status of a response is 2xx and
    [Response.json()] raises the decode error on its body,
    [_handle_response] returns nothing: [raise_for_status] lets a 2xx
    status pass, and the [ValueError] after it is raised, which is neither
    a transport error nor the decode error. *)
Theorem handle_response_2xx_not_json (self : client) (resp : response) (w : world) :
  body_decoding resp = Fails NotJSON →
  (200 ≤ status_code resp < 300)%Z →
  raise_for_status resp = Ok tt
  ∧ BaseRouter._handle_response self resp w
    = (Raise (ValueError "Unreachable since previous line raises"
                         (Some JSONDecodeError)), w)
  ∧ is_transport_error
      (ValueError "Unreachable since previous line raises"
                  (Some JSONDecodeError)) = false
  ∧ is_decode_error
      (ValueError "Unreachable since previous line raises"
                  (Some JSONDecodeError)) = false.
Proof.
  intros Hbody Hstatus.
  assert (Hpass : raise_for_status resp = Ok tt).
  { unfold raise_for_status. rewrite bool_decide_eq_false_2 by lia. reflexivity. }
  rewrite handle_response_undecoded by assumption.
  rewrite Hpass. repeat split.
Qed.

Lemma handle_response_2xx_not_json_200 :
  BaseRouter._handle_response alice
    {| status_code := 200; body_decoding := Fails NotJSON |}
    (answering (text_reply 200) (λ _, false))
  = (Raise (ValueError "Unreachable since previous line raises"
                       (Some JSONDecodeError)),
     answering (text_reply 200) (λ _, false)).
Proof.
  apply (handle_response_2xx_not_json alice
           {| status_code := 200; body_decoding := Fails NotJSON |}).
  - reflexivity.
  - simpl. lia.
Defined.

(** C9, as the claim has it, fails: a 2xx response whose body is a long run
    of opening brackets is not valid JSON, and the decoder leaves it with
    [RecursionError], which the handler's [except JSONDecodeError] does not
    catch: the handler raises that [RecursionError], no [ValueError] of
    any kind. *)
Lemma handle_response_2xx_too_deep :
  let resp := {| status_code := 200; body_decoding := Fails NestedTooDeep |} in
  let w := answering (broken_reply 200 NestedTooDeep) (λ _, false) in
  body_json resp = None
  ∧ (200 ≤ status_code resp < 300)%Z
  ∧ (BaseRouter._handle_response alice resp w).1 = Raise RecursionError
  ∧ ∀ msg cause,
      (BaseRouter._handle_response alice resp w).1 ≠ Raise (ValueError msg cause).
Proof.
  cbv zeta. split; [reflexivity |]. split; [simpl; lia |].
  rewrite handle_response_run. simpl.
  split; [reflexivity | discriminate].
Qed.

(** ** URLs and headers *)

(** C7: [_route_url] is a function of the base origin, the version the
    client was configured with and the route, namely their concatenation
    with [/api/] before the version; with version [v1] the route
    [/table/upload/csv] gives
    [https://api.dune.com/api/v1/table/upload/csv]. *)
Theorem route_url_concat (self : client) (route : string) :
  BaseRouter._route_url self route
  = BaseDuneClient.BASE_URL +:+ "/api/" +:+ client_version self +:+ route
  ∧ BaseDuneClient.BASE_URL = "https://api.dune.com"
  ∧ BaseRouter._route_url
      {| token := token self; client_version := "v1";
         performance := performance self |} "/table/upload/csv"
    = "https://api.dune.com/api/v1/table/upload/csv".
Proof. repeat split. Qed.

(** C8: for every client, [default_headers] is a mapping in which the key
    [x-dune-api-key] occurs once, bound to the token of the client, and
    nothing else occurs.  It is a function of the client alone: the
    embedding has no world to change. *)
Theorem default_headers_auth (self : client) :
  BaseDuneClient.default_headers self !! "x-dune-api-key" = Some (token self)
  ∧ map_to_list (BaseDuneClient.default_headers self)
    = [("x-dune-api-key", token self)]
  ∧ length (filter (λ kv, kv.1 = "x-dune-api-key")
                   (map_to_list (BaseDuneClient.default_headers self))) = 1%nat.
Proof.
  unfold BaseDuneClient.default_headers.
  rewrite map_to_list_singleton, lookup_singleton_eq.
  repeat split.
Qed.

(** ** The verb methods *)

Section Verbs.
Variable self : client.
Implicit Types (route : string) (params : json) (w : world).


Lemma http_send_sent req w :
  sent (http_send req w).2 = sent w ++ [req].
Proof. unfold http_send. destruct (server w req); reflexivity. Qed.

(** What [_post] does, step by step. *)
Lemma post_run route params w :
  BaseRouter._post self route params w =
    match server w (post_request self route params) with
    | NoReply e => (Raise e, record_sent (post_request self route params) w)
    | Reply resp =>
        BaseRouter._handle_response self resp
          (record_sent (post_request self route params) w)
    end.
Proof.
  unfold BaseRouter._post, mbind, M_bind, http_send.
  fold (post_request self route params).
  destruct (server w (post_request self route params)); reflexivity.
Qed.




End Verbs.


(** ** Keyword calls on [_post] *)

Section PostCalls.
Variable self : client.

(** [self._post(route=..., params=...)] binds and runs the body. *)
Lemma call_post_route_params (route : string) (params : json) :
  call (BaseRouter._post_method self) [kw kw_route route; kw kw_params params]
  = BaseRouter._post self route params.
Proof. reflexivity. Qed.

(** [self._post(route=..., headers=..., data=...)] does not bind:
    [_post] declares neither [headers] nor [data]. *)
Lemma call_post_headers_data (route : string)
    (headers : gmap string (option string)) (data : nat) :
  call (BaseRouter._post_method self)
       [kw kw_route route; kw kw_headers headers; kw kw_data data]
  = raise (TypeError (UnexpectedKeyword "_post" "headers")).
Proof. reflexivity. Qed.

End PostCalls.

(** ** [upload_csv] *)

Section UploadCsv.
Variable self : client.
Variables table_name data description : string.
Variable is_private : bool.

(** What [upload_csv] does with a decoded response. *)
Lemma upload_csv_run (w : world) (resp : response) (v : json) :
  server w (upload_csv_request self table_name data description is_private)
    = Reply resp →
  body_json resp = Some v →
  (TableAPI.upload_csv self table_name data description is_private w).1 =
    match v with
    | JObject m =>
        match m !! "success" with
        | Some field => Ok (truthy field)
        | None => Raise (DuneError v "UploadCsvResponse" (KeyError "success"))
        end
    | _ => Raise (TypeError (BadSubscript (type_name v)))
    end.
Proof.
  intros Hserver Hbody.
  unfold TableAPI.upload_csv, TableAPI.upload_csv_via.
  rewrite call_post_route_params.
  fold (upload_csv_params table_name data description is_private).
  unfold mbind at 1. unfold M_bind at 1.
  rewrite post_run.
  fold (upload_csv_request self table_name data description is_private).
  rewrite Hserver.
  rewrite (handle_response_decoded self resp _ v Hbody).
  unfold try_except, mbind, M_bind, mret, M_ret, lift, raise, subscript.
  destruct v as [| b | n | f | s | l | m]; try reflexivity.
  destruct (m !! "success"); reflexivity.
Qed.

End UploadCsv.

(** C2: when the decoded response to [upload_csv] is a mapping with the
    key [success], [upload_csv] returns the boolean value of that field
    ([True] for [{"success": true}], [False] for [{"success": false}]);
    when the key is absent it raises a [DuneError] that carries the
    response and the name [UploadCsvResponse] of the shape it expected. *)
Theorem upload_csv_success_field (self : client)
    (table_name data description : string) (is_private : bool)
    (w : world) (resp : response) (m : gmap string json) :
  server w (upload_csv_request self table_name data description is_private)
    = Reply resp →
  body_json resp = Some (JObject m) →
  (∀ field, m !! "success" = Some field →
     (TableAPI.upload_csv self table_name data description is_private w).1
     = Ok (truthy field))
  ∧ (∀ b, m !! "success" = Some (JBool b) →
     (TableAPI.upload_csv self table_name data description is_private w).1 = Ok b)
  ∧ (m !! "success" = None →
     (TableAPI.upload_csv self table_name data description is_private w).1
     = Raise (DuneError (JObject m) "UploadCsvResponse" (KeyError "success"))).
Proof.
  intros Hserver Hbody.
  pose proof (upload_csv_run self table_name data description is_private
                w resp (JObject m) Hserver Hbody) as Hrun.
  simpl in Hrun.
  split; [| split].
  - intros field Hfield. rewrite Hrun, Hfield. reflexivity.
  - intros b Hfield. rewrite Hrun, Hfield. reflexivity.
  - intros Hfield. rewrite Hrun, Hfield. reflexivity.
Qed.

Lemma upload_csv_success_field_examples :
  (TableAPI.upload_csv alice "prices" "a,b" "" false
     (answering (json_reply 200 (JObject {[ "success" := JBool true ]})) (λ _, false))).1
  = Ok true
  ∧ (TableAPI.upload_csv alice "prices" "a,b" "" false
     (answering (json_reply 200 (JObject {[ "success" := JBool false ]})) (λ _, false))).1
  = Ok false
  ∧ (TableAPI.upload_csv alice "prices" "a,b" "" false
     (answering (json_reply 200 (JObject {[ "error" := JStr "denied" ]})) (λ _, false))).1
  = Raise (DuneError (JObject {[ "error" := JStr "denied" ]}) "UploadCsvResponse"
                     (KeyError "success")).
Proof.
  split; [| split].
  - apply (upload_csv_success_field alice "prices" "a,b" "" false
             (answering (json_reply 200 (JObject {[ "success" := JBool true ]}))
                        (λ _, false))
             {| status_code := 200;
                body_decoding := Decodes (JObject {[ "success" := JBool true ]}) |}
             {[ "success" := JBool true ]});
      [reflexivity | reflexivity | vm_compute; reflexivity].
  - apply (upload_csv_success_field alice "prices" "a,b" "" false
             (answering (json_reply 200 (JObject {[ "success" := JBool false ]}))
                        (λ _, false))
             {| status_code := 200;
                body_decoding := Decodes (JObject {[ "success" := JBool false ]}) |}
             {[ "success" := JBool false ]});
      [reflexivity | reflexivity | vm_compute; reflexivity].
  - apply (upload_csv_success_field alice "prices" "a,b" "" false
             (answering (json_reply 200 (JObject {[ "error" := JStr "denied" ]}))
                        (λ _, false))
             {| status_code := 200;
                body_decoding := Decodes (JObject {[ "error" := JStr "denied" ]}) |}
             {[ "error" := JStr "denied" ]});
      [reflexivity | reflexivity | vm_compute; reflexivity].
Defined.

(** [bool] gives [False] on the values Python counts as false, and on no
    other. *)
Lemma truthy_false_iff (v : json) : truthy v = false ↔ falsy v.
Proof.
  unfold falsy. split.
  - destruct v as [| [|] | n | f | s | l | m]; simpl; try discriminate; intros Hv.
    + left. reflexivity.
    + right. left. reflexivity.
    + right. right. left. f_equal.
      apply negb_false_iff, Z.eqb_eq in Hv. exact Hv.
    + destruct f as [sign | | |]; try discriminate.
      right. right. right. left. exists sign. reflexivity.
    + destruct s; [| discriminate]. do 4 right. left. reflexivity.
    + destruct l; [| discriminate]. do 5 right. left. reflexivity.
    + do 6 right. f_equal.
      apply negb_false_iff, bool_decide_eq_true_1 in Hv. exact Hv.
  - intros [-> | [-> | [-> | [[sign ->] | [-> | [-> | ->]]]]]]; reflexivity.
Qed.

(** C10: [upload_csv] turns only a [KeyError] into the [DuneError].  When
    the decoded response is not a mapping (a list, a string, a number,
    [null]) the subscript raises a [TypeError], which reaches the caller as
    it is; and on a mapping the value returned is [bool] of the field,
    whatever JSON value the field is: [False] for [null], [false], zero
    and the empty string, list and mapping, [True] for every other value,
    booleans or not. *)
Theorem upload_csv_wraps_only_key_error (self : client)
    (table_name data description : string) (is_private : bool)
    (w : world) (resp : response) (v : json) :
  server w (upload_csv_request self table_name data description is_private)
    = Reply resp →
  body_json resp = Some v →
  ((∀ m, v ≠ JObject m) →
     (TableAPI.upload_csv self table_name data description is_private w).1
     = Raise (TypeError (BadSubscript (type_name v)))
     ∧ is_domain_error (TypeError (BadSubscript (type_name v))) = false)
  ∧ (∀ m field, v = JObject m → m !! "success" = Some field →
     ∃ b : bool,
       (TableAPI.upload_csv self table_name data description is_private w).1 = Ok b
       ∧ (b = false ↔ falsy field)).
Proof.
  intros Hserver Hbody.
  pose proof (upload_csv_run self table_name data description is_private
                w resp v Hserver Hbody) as Hrun.
  split.
  - intros Hshape. split; [| reflexivity].
    rewrite Hrun.
    destruct v as [| b | n | f | s | l | m]; try reflexivity.
    destruct (Hshape m). reflexivity.
  - intros m field -> Hfield. exists (truthy field).
    split; [| apply truthy_false_iff].
    rewrite Hrun. simpl. rewrite Hfield. reflexivity.
Qed.

Lemma upload_csv_wraps_only_key_error_examples :
  (TableAPI.upload_csv alice "prices" "a,b" "" false
     (answering (json_reply 200 (JList [JBool true])) (λ _, false))).1
  = Raise (TypeError (BadSubscript "list"))
  ∧ (TableAPI.upload_csv alice "prices" "a,b" "" false
     (answering (json_reply 200 (JStr "ok")) (λ _, false))).1
  = Raise (TypeError (BadSubscript "str"))
  ∧ (TableAPI.upload_csv alice "prices" "a,b" "" false
     (answering (json_reply 200 (JObject {[ "success" := JStr "false" ]}))
                (λ _, false))).1
  = Ok true
  ∧ (TableAPI.upload_csv alice "prices" "a,b" "" false
     (answering (json_reply 200 (JObject {[ "success" := JInt 0 ]}))
                (λ _, false))).1
  = Ok false.
Proof.
  split; [| split; [| split]].
  - apply (upload_csv_wraps_only_key_error alice "prices" "a,b" "" false
             (answering (json_reply 200 (JList [JBool true])) (λ _, false))
             {| status_code := 200; body_decoding := Decodes (JList [JBool true]) |}
             (JList [JBool true]));
      [reflexivity | reflexivity | discriminate].
  - apply (upload_csv_wraps_only_key_error alice "prices" "a,b" "" false
             (answering (json_reply 200 (JStr "ok")) (λ _, false))
             {| status_code := 200; body_decoding := Decodes (JStr "ok") |}
             (JStr "ok"));
      [reflexivity | reflexivity | discriminate].
  - destruct (upload_csv_wraps_only_key_error alice "prices" "a,b" "" false
             (answering (json_reply 200 (JObject {[ "success" := JStr "false" ]}))
                        (λ _, false))
             {| status_code := 200;
                body_decoding := Decodes (JObject {[ "success" := JStr "false" ]}) |}
             (JObject {[ "success" := JStr "false" ]})
             eq_refl eq_refl) as [_ Hfield].
    destruct (Hfield {[ "success" := JStr "false" ]} (JStr "false") eq_refl)
      as (b & Hrun & Hb); [vm_compute; reflexivity |].
    rewrite Hrun. f_equal. destruct b; [reflexivity |].
    destruct (proj1 Hb eq_refl)
      as [Hv | [Hv | [Hv | [[sign Hv] | [Hv | [Hv | Hv]]]]]]; discriminate.
  - destruct (upload_csv_wraps_only_key_error alice "prices" "a,b" "" false
             (answering (json_reply 200 (JObject {[ "success" := JInt 0 ]}))
                        (λ _, false))
             {| status_code := 200;
                body_decoding := Decodes (JObject {[ "success" := JInt 0 ]}) |}
             (JObject {[ "success" := JInt 0 ]})
             eq_refl eq_refl) as [_ Hfield].
    destruct (Hfield {[ "success" := JInt 0 ]} (JInt 0) eq_refl)
      as (b & Hrun & Hb); [vm_compute; reflexivity |].
    rewrite Hrun. f_equal. apply Hb. right. right. left. reflexivity.
Defined.

(** ** [insert_table] *)

(** The content type [insert_table] computes from an extension. *)
Lemma content_type_cases (file_extension : string) :
  (file_extension = "csv" → TableAPI.content_type file_extension = Some "text/csv")
  ∧ (file_extension = "json" ∨ file_extension = "jsonl" →
     TableAPI.content_type file_extension = Some "application/x-ndjson")
  ∧ (file_extension ∉ ["csv"; "json"; "jsonl"] →
     TableAPI.content_type file_extension = None).
Proof.
  unfold TableAPI.content_type.
  split; [| split].
  - intros ->. reflexivity.
  - intros [-> | ->]; reflexivity.
  - intros Hother.
    rewrite bool_decide_eq_false_2
      by (intros ->; apply Hother; constructor).
    rewrite bool_decide_eq_false_2
      by (intros Hjson; apply Hother; constructor; exact Hjson).
    reflexivity.
Qed.

(** Leaving a [with open(...)] block closes the handle it opened, however
    the body ends; when [open] fails there is no handle and no change. *)
Lemma with_open_closes {A : Type} (path : string) (body : nat → M A) (w : world) :
  match files w path with
  | None =>
      (with_open path body w).1 = (body (next_fd w) (record_open w)).1
      ∧ (with_open path body w).2
        = record_closed (next_fd w) (body (next_fd w) (record_open w)).2
  | Some why => with_open path body w = (Raise (open_refusal_exn why path), w)
  end.
Proof.
  unfold with_open, mbind, M_bind, open_rb, finally, close.
  destruct (files w path); [reflexivity |].
  destruct (body (next_fd w) (record_open w)) as [r w']. split; reflexivity.
Qed.

Lemma record_closed_not_open (fd : nat) (w : world) :
  fd ∉ open_files (record_closed fd w).
Proof.
  unfold record_closed. simpl.
  intros [_ Hne]%elem_of_difference. apply Hne, elem_of_singleton. reflexivity.
Qed.

(** What [insert_table] does on the class as written: the keyword call on
    [_post] is refused, after the file was opened and before anything is
    sent. *)
Lemma insert_table_run (self : client) (namespace table_name path : string)
    (w : world) :
  TableAPI.insert_table self namespace table_name path w =
    match files w path with
    | None => (Raise (TypeError (UnexpectedKeyword "_post" "headers")),
               record_closed (next_fd w) (record_open w))
    | Some why => (Raise (open_refusal_exn why path), w)
    end.
Proof.
  unfold TableAPI.insert_table, TableAPI.insert_table_via.
  pose proof (with_open_closes path
    (λ data,
       response_json ← call (BaseRouter._post_method self)
         [ kw kw_route ("/table/" +:+ namespace +:+ "/" +:+ table_name +:+ "/insert");
           kw kw_headers
              {[ "Content-Type" :=
                   TableAPI.content_type (last_item (split "."%char path)) ]};
           kw kw_data data ];
       try_except (mret response_json)
         (λ err, match err with
                 | KeyError _ =>
                     Some (raise (DuneError response_json "InsertTableResponse" err))
                 | _ => None
                 end)) w) as Hwith.
  destruct (files w path); [exact Hwith |].
  destruct Hwith as [Hres Hworld].
  apply injective_projections; [rewrite Hres | rewrite Hworld];
    unfold mbind, M_bind; rewrite call_post_headers_data; reflexivity.
Qed.

(** C1, on the code: [insert_table] on a readable [data.csv] computes the
    content type [text/csv], and then the call of [_post] with [headers]
    and [data] raises a [TypeError]; no request is sent, so no POST carries
    the header. *)
Theorem insert_table_csv_sends_nothing :
  let w := answering (json_reply 200 (JObject ∅)) (λ _, true) in
  let run := TableAPI.insert_table alice "dune" "prices" "data.csv" w in
  TableAPI.content_type (last_item (split "."%char "data.csv")) = Some "text/csv"
  ∧ run.1 = Raise (TypeError (UnexpectedKeyword "_post" "headers"))
  ∧ sent run.2 = [].
Proof.
  cbv zeta. rewrite insert_table_run. repeat split.
Qed.

(** C5: the handle [insert_table] opens for [path] is closed when the call
    is left, whatever [self._post] is and whether it returns or raises;
    when the file cannot be opened there is no handle and the open files
    are as before.  On the class as written the same holds, with
    [BaseRouter._post] for [self._post]. *)
Theorem insert_table_closes_file (self : client) (self_post : pymethod json)
    (namespace table_name path : string) (w : world) :
  (if readable w path
   then next_fd w
        ∉ open_files (TableAPI.insert_table_via self_post namespace table_name path w).2
   else open_files (TableAPI.insert_table_via self_post namespace table_name path w).2
        = open_files w)
  ∧ (if readable w path
     then next_fd w
          ∉ open_files (TableAPI.insert_table self namespace table_name path w).2
     else open_files (TableAPI.insert_table self namespace table_name path w).2
          = open_files w).
Proof.
  assert (Hany : ∀ post,
    if readable w path
    then next_fd w
         ∉ open_files (TableAPI.insert_table_via post namespace table_name path w).2
    else open_files (TableAPI.insert_table_via post namespace table_name path w).2
         = open_files w).
  { intros post. unfold TableAPI.insert_table_via.
    match goal with
    | |- context [with_open path ?body w] =>
        pose proof (with_open_closes path body w) as Hwith
    end.
    unfold readable. destruct (files w path).
    - rewrite Hwith. reflexivity.
    - destruct Hwith as [_ ->]. apply record_closed_not_open. }
  split; [apply Hany |]. apply (Hany (BaseRouter._post_method self)).
Qed.

(** Both ways out of the block, on a [_post] that takes the keywords. *)
Example insert_table_closes_on_return :
  let w := answering (json_reply 200 (JObject ∅)) (λ _, true) in
  let run := TableAPI.insert_table_via (accepting_post (Ok (JObject ∅)))
               "dune" "prices" "data.csv" w in
  run.1 = Ok (JObject ∅) ∧ open_files run.2 = ∅ ∧ next_fd run.2 = 4%nat.
Proof. vm_compute. repeat split. Qed.

Example insert_table_closes_on_raise :
  let w := answering (json_reply 200 (JObject ∅)) (λ _, true) in
  let run := TableAPI.insert_table_via
               (accepting_post (Raise (RequestException "connection refused")))
               "dune" "prices" "data.csv" w in
  run.1 = Raise (RequestException "connection refused")
  ∧ open_files run.2 = ∅ ∧ next_fd run.2 = 4%nat.
Proof. vm_compute. repeat split. Qed.

(** * Further properties of [base.py] *)

(** ** Construction from the environment *)



(** [from_env] fails exactly when [DUNE_API_KEY] is not set, and then with
    the [KeyError] of that name; a variable that is set, even to the empty
    string, gives a client. *)
Theorem from_env_fails_iff_unset (environ : gmap string string) :
  (BaseDuneClient.from_env environ = Raise (KeyError "DUNE_API_KEY")
   ↔ environ !! "DUNE_API_KEY" = None)
  ∧ (∀ e, BaseDuneClient.from_env environ = Raise e → e = KeyError "DUNE_API_KEY")
  ∧ (∀ self, BaseDuneClient.from_env environ = Ok self
             ↔ environ !! "DUNE_API_KEY" = Some (token self)
               ∧ self = BaseDuneClient.init (token self)).
Proof.
  unfold BaseDuneClient.from_env.
  destruct (environ !! "DUNE_API_KEY") as [api_key |].
  - split; [split; discriminate |]. split; [discriminate |].
    intros self. split.
    + intros [= <-]. split; reflexivity.
    + intros [[= ->] ->]. reflexivity.
  - split; [split; reflexivity |]. split.
    + intros e [= <-]. reflexivity.
    + intros self. split; [discriminate | intros [? _]; discriminate].
Qed.

(** ** The response handler, in full *)

(** [_handle_response] returns a value exactly when the body decodes, and
    then that value; it raises an [HTTPError] exactly when [Response.json()]
    raises the decode error and the status is 400 to 599, and then the one
    of that status; the other exceptions of [Response.json()], the
    [RecursionError] of a body nested too deep and the [ValueError] of an
    integer too long, pass through as they are whatever the status; and
    the decode error itself never leaves the handler. *)
Theorem handle_response_outcomes (self : client) (resp : response) (w : world) :
  (∀ v, (BaseRouter._handle_response self resp w).1 = Ok v ↔ body_json resp = Some v)
  ∧ (∀ status, (BaseRouter._handle_response self resp w).1 = Raise (HTTPError status)
               ↔ body_decoding resp = Fails NotJSON ∧ status = status_code resp
                 ∧ (400 ≤ status < 600)%Z)
  ∧ ((BaseRouter._handle_response self resp w).1 = Raise RecursionError
     ↔ body_decoding resp = Fails NestedTooDeep)
  ∧ ((BaseRouter._handle_response self resp w).1
       = Raise (ValueError
                  "Exceeds the limit (4300 digits) for integer string conversion"
                  None)
     ↔ body_decoding resp = Fails IntegerTooLong)
  ∧ (BaseRouter._handle_response self resp w).1 ≠ Raise JSONDecodeError
  ∧ (BaseRouter._handle_response self resp w).2 = w.
Proof.
  rewrite handle_response_run. unfold body_json.
  destruct (body_decoding resp) as [v | [| |]]; simpl.
  - repeat split; try discriminate; try reflexivity.
    + intros [= ->]. reflexivity.
    + intros [= ->]. reflexivity.
    + intros [Habsurd _]. discriminate.
  - case_bool_decide as Hstatus; repeat split; try discriminate; try reflexivity;
      try match goal with
          | H : Raise (HTTPError _) = Raise (HTTPError _) |- _ =>
              injection H as <-; first [reflexivity | lia]
          end.
    + intros (_ & -> & _). reflexivity.
    + intros (_ & -> & Hrange). contradiction.
  - repeat split; try discriminate; try reflexivity.
    intros [Habsurd _]. discriminate.
  - repeat split; try discriminate; try reflexivity.
    intros [Habsurd _]. discriminate.
Qed.

(** ** URLs *)

Lemma append_cancel_l (p s t : string) : p +:+ s = p +:+ t → s = t.
Proof.
  induction p as [| c p IH]; simpl; [trivial |].
  intros [= H]. apply IH, H.
Qed.

(** Two routes that differ give, on one client, URLs that differ. *)
Theorem route_url_injective (self : client) (route1 route2 : string) :
  route1 ≠ route2 →
  BaseRouter._route_url self route1 ≠ BaseRouter._route_url self route2.
Proof.
  intros Hdiff Hurl. apply Hdiff.
  unfold BaseRouter._route_url in Hurl.
  apply append_cancel_l, append_cancel_l in Hurl. exact Hurl.
Qed.

Lemma route_url_injective_example :
  BaseRouter._route_url alice "/table/upload/csv"
  ≠ BaseRouter._route_url alice "/table/dune/prices/create".
Proof.
  apply (route_url_injective alice "/table/upload/csv" "/table/dune/prices/create").
  discriminate.
Defined.

(** ** The verb methods, in full *)

Section VerbRuns.
Variable self : client.
Implicit Types (route : string) (params : json) (w : world).

Lemma get_run route params raw w :
  BaseRouter._get self route params raw w =
    match server w (get_request self route params) with
    | NoReply e => (Raise e, record_sent (get_request self route params) w)
    | Reply resp =>
        if raw
        then (Ok (RawResponse resp), record_sent (get_request self route params) w)
        else (match (BaseRouter._handle_response self resp
                       (record_sent (get_request self route params) w)).1 with
              | Ok v => Ok (Decoded v)
              | Raise e => Raise e
              end, record_sent (get_request self route params) w)
    end.
Proof.
  unfold BaseRouter._get, http_send. unfold mbind at 1. unfold M_bind at 1.
  fold (get_request self route params).
  destruct (server w (get_request self route params)) as [e | resp]; [reflexivity |].
  destruct raw; [reflexivity |].
  unfold mbind, M_bind, mret, M_ret.
  pose proof (handle_response_world self resp
                (record_sent (get_request self route params) w)) as Hw.
  destruct (BaseRouter._handle_response self resp _) as [[v | e] w'];
    simpl in Hw; subst w'; reflexivity.
Qed.


Lemma handle_response_pair resp w :
  BaseRouter._handle_response self resp w
  = ((BaseRouter._handle_response self resp w).1, w).
Proof.
  rewrite <- (handle_response_world self resp w) at 3.
  destruct (BaseRouter._handle_response self resp w); reflexivity.
Qed.

End VerbRuns.

(** [_get] with [raw=True] hands back the response as it came, whatever
    its status and whether or not its body is JSON: nothing is decoded and
    nothing is raised for a response. *)
Theorem get_raw_returns_response (self : client) (route : string) (params : json)
    (w : world) (resp : response) :
  server w (get_request self route params) = Reply resp →
  BaseRouter._get self route params true w
  = (Ok (RawResponse resp), record_sent (get_request self route params) w).
Proof. intros Hserver. rewrite get_run, Hserver. reflexivity. Qed.

Lemma get_raw_returns_response_500 :
  BaseRouter._get alice "/query/1/results" JNull true
    (answering (text_reply 500) (λ _, false))
  = (Ok (RawResponse {| status_code := 500; body_decoding := Fails NotJSON |}),
     record_sent (get_request alice "/query/1/results" JNull)
       (answering (text_reply 500) (λ _, false))).
Proof.
  apply (get_raw_returns_response alice "/query/1/results" JNull
           (answering (text_reply 500) (λ _, false))
           {| status_code := 500; body_decoding := Fails NotJSON |}).
  reflexivity.
Defined.

(** [_get] without [raw] treats the response as [_post] does: the decoded
    body when there is one; when [Response.json()] raises the decode
    error, the [HTTPError] of a 4xx or 5xx status and else the
    [ValueError] of the line that was meant to be unreachable; and the
    other exceptions of [Response.json()] as they are.  The request went
    out with [params] as its query and without a JSON body. *)
Theorem get_decodes_response (self : client) (route : string) (params : json)
    (w : world) (resp : response) :
  server w (get_request self route params) = Reply resp →
  BaseRouter._get self route params false w
  = (match body_decoding resp with
     | Decodes v => Ok (Decoded v)
     | Fails NotJSON =>
         if bool_decide (400 ≤ status_code resp < 600)%Z
         then Raise (HTTPError (status_code resp))
         else Raise (ValueError "Unreachable since previous line raises"
                                (Some JSONDecodeError))
     | Fails NestedTooDeep => Raise RecursionError
     | Fails IntegerTooLong =>
         Raise (ValueError
                  "Exceeds the limit (4300 digits) for integer string conversion"
                  None)
     end, record_sent (get_request self route params) w)
  ∧ req_params (get_request self route params) = params
  ∧ req_json (get_request self route params) = JNull.
Proof.
  intros Hserver. rewrite get_run, Hserver.
  split; [| split; reflexivity].
  rewrite handle_response_run.
  destruct (body_decoding resp) as [v | [| |]]; try reflexivity.
  simpl. case_bool_decide; reflexivity.
Qed.

Lemma get_decodes_response_example :
  BaseRouter._get alice "/query/1/results" (JObject {[ "limit" := JInt 5 ]}) false
    (answering (json_reply 200 (JList [JInt 1; JInt 2])) (λ _, false))
  = (Ok (Decoded (JList [JInt 1; JInt 2])),
     record_sent (get_request alice "/query/1/results" (JObject {[ "limit" := JInt 5 ]}))
       (answering (json_reply 200 (JList [JInt 1; JInt 2])) (λ _, false)))
  ∧ req_params (get_request alice "/query/1/results" (JObject {[ "limit" := JInt 5 ]}))
    = JObject {[ "limit" := JInt 5 ]}
  ∧ req_json (get_request alice "/query/1/results" (JObject {[ "limit" := JInt 5 ]}))
    = JNull.
Proof.
  apply (get_decodes_response alice "/query/1/results" (JObject {[ "limit" := JInt 5 ]})
           (answering (json_reply 200 (JList [JInt 1; JInt 2])) (λ _, false))
           {| status_code := 200; body_decoding := Decodes (JList [JInt 1; JInt 2]) |}).
  reflexivity.
Defined.




(** * Further properties of [table.py] *)

(** ** [upload_csv], in full *)

Section UploadCsvFull.
Variable self : client.
Variables table_name data description : string.
Variable is_private : bool.

(** Every way [upload_csv] can end, by the answer to its request. *)
Lemma upload_csv_full (w : world) :
  TableAPI.upload_csv self table_name data description is_private w =
    (match server w (upload_csv_request self table_name data description is_private)
     with
     | NoReply e => Raise e
     | Reply resp =>
         match body_decoding resp with
         | Fails NotJSON =>
             if bool_decide (400 ≤ status_code resp < 600)%Z
             then Raise (HTTPError (status_code resp))
             else Raise (ValueError "Unreachable since previous line raises"
                                    (Some JSONDecodeError))
         | Fails how => Raise (json_failure_exn how)
         | Decodes (JObject m) =>
             match m !! "success" with
             | Some field => Ok (truthy field)
             | None => Raise (DuneError (JObject m) "UploadCsvResponse"
                                        (KeyError "success"))
             end
         | Decodes v => Raise (TypeError (BadSubscript (type_name v)))
         end
     end,
     record_sent (upload_csv_request self table_name data description is_private) w).
Proof.
  unfold TableAPI.upload_csv, TableAPI.upload_csv_via.
  rewrite call_post_route_params.
  fold (upload_csv_params table_name data description is_private).
  unfold mbind at 1. unfold M_bind at 1.
  rewrite post_run.
  fold (upload_csv_request self table_name data description is_private).
  destruct (server w _) as [e | resp]; [reflexivity |].
  rewrite handle_response_run.
  destruct (body_decoding resp) as [v | [| |]]; try reflexivity.
  - unfold try_except, mbind, M_bind, mret, M_ret, lift, raise, subscript.
    destruct v as [| b | n | f | s | l | m]; try reflexivity.
    destruct (m !! "success"); reflexivity.
  - simpl. case_bool_decide; reflexivity.
Qed.

End UploadCsvFull.


(** [upload_csv] sends one POST, whatever comes back: to the upload route
    of the client's version, with a body of exactly the four fields
    [table_name], [description], [data] and [is_private] holding its
    arguments; it opens no file. *)
Theorem upload_csv_sends_once (self : client)
    (table_name data description : string) (is_private : bool) (w : world) :
  ∃ req body,
    (TableAPI.upload_csv self table_name data description is_private w).2
    = record_sent req w
    ∧ req_method req = POST
    ∧ req_url req = "https://api.dune.com/api/" +:+ client_version self
                    +:+ "/table/upload/csv"
    ∧ req_json req = JObject body
    ∧ body !! "table_name" = Some (JStr table_name)
    ∧ body !! "description" = Some (JStr description)
    ∧ body !! "data" = Some (JStr data)
    ∧ body !! "is_private" = Some (JBool is_private)
    ∧ dom body = {[ "table_name"; "description"; "data"; "is_private" ]}.
Proof.
  eexists (upload_csv_request self table_name data description is_private), _.
  rewrite upload_csv_full.
  split; [reflexivity |]. split; [reflexivity |]. split; [reflexivity |].
  split; [reflexivity |].
  unfold upload_csv_params.
  split; [apply lookup_insert_eq |].
  split; [rewrite lookup_insert_ne by discriminate; apply lookup_insert_eq |].
  split; [do 2 (rewrite lookup_insert_ne by discriminate); apply lookup_insert_eq |].
  split; [do 3 (rewrite lookup_insert_ne by discriminate); apply lookup_insert_eq |].
  rewrite !dom_insert_L, dom_empty_L.
  rewrite (right_id_L ∅ (∪)).
  rewrite !(assoc_L (∪)). reflexivity.
Qed.

(** Once the remote end has answered, [upload_csv] returns a boolean
    exactly when the answer is a JSON mapping with the key [success], and
    the boolean is [bool] of that field: [False] when the field is [null],
    [false], the number zero, or an empty string, list or mapping, and
    [True] for every other value, the string ["false"] included. *)
Theorem upload_csv_returns_iff (self : client)
    (table_name data description : string) (is_private : bool)
    (w : world) (resp : response) (b : bool) :
  server w (upload_csv_request self table_name data description is_private)
    = Reply resp →
  (TableAPI.upload_csv self table_name data description is_private w).1 = Ok b
  ↔ ∃ m field, body_json resp = Some (JObject m)
               ∧ m !! "success" = Some field
               ∧ (b = false ↔ falsy field).
Proof.
  intros Hserver. rewrite upload_csv_full, Hserver. unfold body_json. simpl.
  split.
  - destruct (body_decoding resp) as [[| b' | n | f | s | l | m] | [| |]];
      try discriminate; try (case_bool_decide; discriminate).
    destruct (m !! "success") as [field |] eqn:Hfield; [| discriminate].
    intros [= <-]. exists m, field.
    split; [reflexivity |]. split; [exact Hfield | apply truthy_false_iff].
  - intros (m & field & Hbody & Hfield & Hb).
    destruct (body_decoding resp) as [v | how]; [| discriminate].
    injection Hbody as ->. rewrite Hfield. f_equal.
    destruct b, (truthy field) eqn:Htruthy; try reflexivity.
    + apply truthy_false_iff, Hb in Htruthy. discriminate.
    + pose proof (proj1 Hb eq_refl) as Hfalsy.
      apply truthy_false_iff in Hfalsy. congruence.
Qed.

Lemma upload_csv_returns_iff_examples :
  (TableAPI.upload_csv alice "prices" "a,b" "" false
     (answering (json_reply 200 (JObject {[ "success" := JNull ]})) (λ _, false))).1
  = Ok false
  ∧ (TableAPI.upload_csv alice "prices" "a,b" "" false
       (answering (json_reply 200 (JObject {[ "success" := JInt 0 ]})) (λ _, false))).1
    = Ok false
  ∧ (TableAPI.upload_csv alice "prices" "a,b" "" false
       (answering (json_reply 200 (JObject {[ "success" := JStr "no" ]}))
                  (λ _, false))).1
    = Ok true.
Proof.
  split; [| split].
  - apply (upload_csv_returns_iff alice "prices" "a,b" "" false
             (answering (json_reply 200 (JObject {[ "success" := JNull ]})) (λ _, false))
             {| status_code := 200;
                body_decoding := Decodes (JObject {[ "success" := JNull ]}) |} false);
      [reflexivity |].
    exists {[ "success" := JNull ]}, JNull.
    split; [reflexivity |]. split; [vm_compute; reflexivity |].
    split; [intros _; left; reflexivity | reflexivity].
  - apply (upload_csv_returns_iff alice "prices" "a,b" "" false
             (answering (json_reply 200 (JObject {[ "success" := JInt 0 ]})) (λ _, false))
             {| status_code := 200;
                body_decoding := Decodes (JObject {[ "success" := JInt 0 ]}) |} false);
      [reflexivity |].
    exists {[ "success" := JInt 0 ]}, (JInt 0).
    split; [reflexivity |]. split; [vm_compute; reflexivity |].
    split; [intros _; right; right; left; reflexivity | reflexivity].
  - apply (upload_csv_returns_iff alice "prices" "a,b" "" false
             (answering (json_reply 200 (JObject {[ "success" := JStr "no" ]}))
                        (λ _, false))
             {| status_code := 200;
                body_decoding := Decodes (JObject {[ "success" := JStr "no" ]}) |} true);
      [reflexivity |].
    exists {[ "success" := JStr "no" ]}, (JStr "no").
    split; [reflexivity |]. split; [vm_compute; reflexivity |].
    split; [discriminate |].
    intros [Hv | [Hv | [Hv | [[sign Hv] | [Hv | [Hv | Hv]]]]]]; discriminate.
Defined.

(** Once the remote end has answered, [upload_csv] raises a [DuneError]
    exactly when the answer is a JSON mapping without the key [success];
    the error then holds that mapping, the name [UploadCsvResponse] and the
    [KeyError] of the lookup.  The status plays no part: a JSON error
    body of a 4xx answer comes out as a [DuneError]. *)
Theorem upload_csv_dune_error_iff (self : client)
    (table_name data description : string) (is_private : bool)
    (w : world) (resp : response)
    (payload : json) (response_class : string) (cause : exn) :
  server w (upload_csv_request self table_name data description is_private)
    = Reply resp →
  (TableAPI.upload_csv self table_name data description is_private w).1
    = Raise (DuneError payload response_class cause)
  ↔ ∃ m, body_json resp = Some (JObject m)
         ∧ m !! "success" = None
         ∧ payload = JObject m
         ∧ response_class = "UploadCsvResponse"
         ∧ cause = KeyError "success".
Proof.
  intros Hserver. rewrite upload_csv_full, Hserver. unfold body_json. simpl.
  split.
  - destruct (body_decoding resp) as [[| b' | n | f | s | l | m] | [| |]];
      try discriminate; try (case_bool_decide; discriminate).
    destruct (m !! "success") as [field |] eqn:Hfield; [discriminate |].
    intros [= <- <- <-]. exists m. auto.
  - intros (m & Hbody & Hfield & -> & -> & ->).
    destruct (body_decoding resp) as [v | how]; [| discriminate].
    injection Hbody as ->. rewrite Hfield. reflexivity.
Qed.

Lemma upload_csv_dune_error_iff_example :
  (TableAPI.upload_csv alice "prices" "a,b" "" false
     (answering (json_reply 401 (JObject {[ "error" := JStr "invalid API Key" ]}))
                (λ _, false))).1
  = Raise (DuneError (JObject {[ "error" := JStr "invalid API Key" ]})
                     "UploadCsvResponse" (KeyError "success"))
  ↔ ∃ m, Some (JObject {[ "error" := JStr "invalid API Key" ]}) = Some (JObject m)
         ∧ m !! "success" = None
         ∧ JObject {[ "error" := JStr "invalid API Key" ]} = JObject m
         ∧ "UploadCsvResponse" = "UploadCsvResponse"
         ∧ KeyError "success" = KeyError "success".
Proof.
  apply (upload_csv_dune_error_iff alice "prices" "a,b" "" false
           (answering (json_reply 401 (JObject {[ "error" := JStr "invalid API Key" ]}))
                      (λ _, false))
           {| status_code := 401;
              body_decoding := Decodes (JObject {[ "error" := JStr "invalid API Key" ]}) |}).
  reflexivity.
Defined.

(** What [upload_csv] lets through as it is, never as a [DuneError]: the
    exception of a transport that failed; for an answer on whose body
    [Response.json()] raises the decode error, the [HTTPError] of a 4xx or
    5xx status; and the other exceptions of [Response.json()], the
    [RecursionError] of a body nested too deep and the [ValueError] of an
    integer too long, whatever the status. *)
Theorem upload_csv_passes_errors (self : client)
    (table_name data description : string) (is_private : bool) (w : world) :
  (∀ e, server w (upload_csv_request self table_name data description is_private)
          = NoReply e →
        (TableAPI.upload_csv self table_name data description is_private w).1
        = Raise e)
  ∧ (∀ resp, server w (upload_csv_request self table_name data description is_private)
               = Reply resp →
             body_decoding resp = Fails NotJSON →
             (400 ≤ status_code resp < 600)%Z →
             (TableAPI.upload_csv self table_name data description is_private w).1
             = Raise (HTTPError (status_code resp)))
  ∧ (∀ resp, server w (upload_csv_request self table_name data description is_private)
               = Reply resp →
             body_decoding resp = Fails NestedTooDeep →
             (TableAPI.upload_csv self table_name data description is_private w).1
             = Raise RecursionError)
  ∧ (∀ resp, server w (upload_csv_request self table_name data description is_private)
               = Reply resp →
             body_decoding resp = Fails IntegerTooLong →
             (TableAPI.upload_csv self table_name data description is_private w).1
             = Raise (ValueError
                        "Exceeds the limit (4300 digits) for integer string conversion"
                        None)).
Proof.
  split; [| split; [| split]].
  - intros e Hserver. rewrite upload_csv_full, Hserver. reflexivity.
  - intros resp Hserver Hbody Hstatus.
    rewrite upload_csv_full, Hserver, Hbody. simpl.
    rewrite bool_decide_eq_true_2 by assumption. reflexivity.
  - intros resp Hserver Hbody.
    rewrite upload_csv_full, Hserver, Hbody. reflexivity.
  - intros resp Hserver Hbody.
    rewrite upload_csv_full, Hserver, Hbody. reflexivity.
Qed.

Lemma upload_csv_passes_errors_example :
  (TableAPI.upload_csv alice "prices" "a,b" "" false
     (answering (failing (RequestException "connection refused")) (λ _, false))).1
  = Raise (RequestException "connection refused")
  ∧ (TableAPI.upload_csv alice "prices" "a,b" "" false
       (answering (text_reply 401) (λ _, false))).1
    = Raise (HTTPError 401)
  ∧ (TableAPI.upload_csv alice "prices" "a,b" "" false
       (answering (broken_reply 500 NestedTooDeep) (λ _, false))).1
    = Raise RecursionError
  ∧ (TableAPI.upload_csv alice "prices" "a,b" "" false
       (answering (broken_reply 200 IntegerTooLong) (λ _, false))).1
    = Raise (ValueError
               "Exceeds the limit (4300 digits) for integer string conversion" None).
Proof.
  split; [| split; [| split]].
  - apply (upload_csv_passes_errors alice "prices" "a,b" "" false
             (answering (failing (RequestException "connection refused")) (λ _, false))).
    reflexivity.
  - destruct (upload_csv_passes_errors alice "prices" "a,b" "" false
                (answering (text_reply 401) (λ _, false))) as (_ & Hstatus & _).
    apply (Hstatus {| status_code := 401; body_decoding := Fails NotJSON |});
      [reflexivity | reflexivity | simpl; lia].
  - destruct (upload_csv_passes_errors alice "prices" "a,b" "" false
                (answering (broken_reply 500 NestedTooDeep) (λ _, false)))
      as (_ & _ & Hdeep & _).
    apply (Hdeep {| status_code := 500; body_decoding := Fails NestedTooDeep |});
      reflexivity.
  - destruct (upload_csv_passes_errors alice "prices" "a,b" "" false
                (answering (broken_reply 200 IntegerTooLong) (λ _, false)))
      as (_ & _ & _ & Hlong).
    apply (Hlong {| status_code := 200; body_decoding := Fails IntegerTooLong |});
      reflexivity.
Defined.

(** ** [create_table] *)

Lemma create_table_run (self : client) (namespace table_name : string)
    (schema : list (gmap string string)) (description : string) (w : world) :
  TableAPI.create_table self namespace table_name schema description w
  = BaseRouter._post self (create_table_route namespace table_name)
      (create_table_payload schema description) w.
Proof.
  unfold TableAPI.create_table, TableAPI.create_table_via.
  rewrite call_post_route_params.
  fold (create_table_route namespace table_name).
  fold (create_table_payload schema description).
  unfold mbind at 1. unfold M_bind at 1.
  destruct (BaseRouter._post self _ _ w) as [[v | e] w']; reflexivity.
Qed.

(** The [except KeyError] clause of [create_table] guards a bare [return]
    and never runs: [create_table] is the POST of its route and payload,
    and nothing more. *)
Theorem create_table_is_post (self : client) (namespace table_name : string)
    (schema : list (gmap string string)) (description : string) (w : world) :
  TableAPI.create_table self namespace table_name schema description w
  = BaseRouter._post self
      ("/table/" +:+ namespace +:+ "/" +:+ table_name +:+ "/create")
      (JObject (<[ "schema" := TableAPI.schema_json schema ]>
               (<[ "description" := JStr description ]> ∅))) w.
Proof. apply create_table_run. Qed.

(** Once the remote end has answered, [create_table] returns the decoded
    body whatever it holds, an error body of a 4xx answer included, and
    never raises a [DuneError].  When [Response.json()] raises the decode
    error it raises the [HTTPError] of a 4xx or 5xx status and else the
    [ValueError] of the line that was meant to be unreachable; the other
    exceptions of [Response.json()] pass through as they are. *)
Theorem create_table_returns_response (self : client) (namespace table_name : string)
    (schema : list (gmap string string)) (description : string)
    (w : world) (resp : response) :
  server w (create_table_request self namespace table_name schema description)
    = Reply resp →
  TableAPI.create_table self namespace table_name schema description w
  = (match body_decoding resp with
     | Decodes v => Ok v
     | Fails NotJSON =>
         if bool_decide (400 ≤ status_code resp < 600)%Z
         then Raise (HTTPError (status_code resp))
         else Raise (ValueError "Unreachable since previous line raises"
                                (Some JSONDecodeError))
     | Fails NestedTooDeep => Raise RecursionError
     | Fails IntegerTooLong =>
         Raise (ValueError
                  "Exceeds the limit (4300 digits) for integer string conversion"
                  None)
     end,
     record_sent (create_table_request self namespace table_name schema description) w)
  ∧ ∀ payload response_class cause,
      (TableAPI.create_table self namespace table_name schema description w).1
      ≠ Raise (DuneError payload response_class cause).
Proof.
  intros Hserver.
  rewrite create_table_run, post_run.
  fold (create_table_request self namespace table_name schema description).
  rewrite Hserver, handle_response_run.
  destruct (body_decoding resp) as [v | [| |]];
    try (split; [reflexivity | discriminate]).
  simpl. case_bool_decide; (split; [reflexivity | discriminate]).
Qed.

Lemma create_table_returns_response_example :
  let w := answering
             (json_reply 400 (JObject {[ "error" := JStr "table already exists" ]}))
             (λ _, false) in
  TableAPI.create_table alice "dune" "prices" [{[ "name" := "day"; "type" := "date" ]}]
    "daily prices" w
  = (Ok (JObject {[ "error" := JStr "table already exists" ]}),
     record_sent (create_table_request alice "dune" "prices"
                    [{[ "name" := "day"; "type" := "date" ]}] "daily prices") w).
Proof.
  cbv zeta.
  apply (create_table_returns_response alice "dune" "prices"
           [{[ "name" := "day"; "type" := "date" ]}] "daily prices"
           (answering
              (json_reply 400 (JObject {[ "error" := JStr "table already exists" ]}))
              (λ _, false))
           {| status_code := 400;
              body_decoding := Decodes (JObject {[ "error" := JStr "table already exists" ]}) |}).
  reflexivity.
Defined.

(** ** The file extension *)

Section Extension.
Variable sep : Ascii.ascii.

Lemma last_item_cons (piece : string) (pieces : list string) :
  pieces ≠ [] → last_item (piece :: pieces) = last_item pieces.
Proof. destruct pieces; [contradiction | reflexivity]. Qed.

Lemma last_item_app (front pieces : list string) :
  pieces ≠ [] → last_item (front ++ pieces) = last_item pieces.
Proof.
  intros Hne. induction front as [| piece front IH]; [reflexivity |].
  change ((piece :: front) ++ pieces) with (piece :: (front ++ pieces)).
  rewrite last_item_cons; [exact IH |].
  destruct front; [exact Hne | discriminate].
Qed.

(** Without the separator there is one piece, the string itself. *)
Lemma split_without_sep (s : string) : occurs sep s = false → split sep s = [s].
Proof.
  induction s as [| c rest IH]; [reflexivity |].
  simpl. intros [Hc Hrest]%orb_false_iff.
  rewrite Hc, (IH Hrest). reflexivity.
Qed.

(** The pieces after a separator are the pieces of what follows it. *)
Lemma split_app_sep (stem ext : string) :
  ∃ piece front,
    split sep (stem +:+ String sep ext) = (piece :: front) ++ split sep ext.
Proof.
  induction stem as [| c stem IH].
  - exists EmptyString, []. simpl. rewrite Ascii.eqb_refl. reflexivity.
  - destruct IH as (piece & front & IH). simpl.
    destruct (Ascii.eqb c sep).
    + exists EmptyString, (piece :: front). rewrite IH. reflexivity.
    + exists (String c piece), front. rewrite IH. reflexivity.
Qed.

(** A string has no separator, or is a stem, the separator, and a rest
    without separator. *)
Lemma cut_at_last_sep (s : string) :
  occurs sep s = false
  ∨ ∃ stem ext, s = stem +:+ String sep ext ∧ occurs sep ext = false.
Proof.
  induction s as [| c rest IH]; [left; reflexivity |].
  destruct IH as [Hfree | (stem & ext & -> & Hext)].
  - destruct (Ascii.eqb c sep) eqn:Hc.
    + right. exists EmptyString, rest.
      apply Ascii.eqb_eq in Hc. subst c. split; [reflexivity | exact Hfree].
    + left. simpl. rewrite Hc, Hfree. reflexivity.
  - right. exists (String c stem), ext. split; [reflexivity | exact Hext].
Qed.

Lemma last_piece_after_sep (stem ext : string) :
  occurs sep ext = false →
  last_item (split sep (stem +:+ String sep ext)) = ext.
Proof.
  intros Hext.
  destruct (split_app_sep stem ext) as (piece & front & Hsplit).
  rewrite Hsplit.
  rewrite last_item_app by apply split_nonempty.
  rewrite split_without_sep by exact Hext. reflexivity.
Qed.

Lemma last_piece_without_sep (s : string) :
  occurs sep s = false → last_item (split sep s) = s.
Proof. intros Hfree. rewrite split_without_sep by exact Hfree. reflexivity. Qed.

Lemma append_sep_assoc (stem ext : string) :
  stem +:+ String sep ext = (stem +:+ String sep EmptyString) +:+ ext.
Proof.
  induction stem as [| c stem IH]; [reflexivity |].
  exact (f_equal (String c) IH).
Qed.

End Extension.

(** For a path that ends in a dot and an extension without dots,
    [insert_table] takes that extension, however many dots and slashes the
    part before it has. *)
Theorem extension_after_last_dot (stem ext : string) :
  occurs "."%char ext = false →
  last_item (split "."%char (stem +:+ "." +:+ ext)) = ext.
Proof. apply last_piece_after_sep. Qed.

Lemma extension_after_last_dot_example :
  last_item (split "."%char ("uploads/2024.01/prices" +:+ "." +:+ "jsonl")) = "jsonl".
Proof.
  apply (extension_after_last_dot "uploads/2024.01/prices" "jsonl").
  reflexivity.
Defined.

(** For a path without any dot the whole path is taken as the extension:
    a file named [csv] is sent as CSV, and a file named [data] gets no
    content type. *)
Theorem extension_without_dot (path : string) :
  occurs "."%char path = false →
  last_item (split "."%char path) = path
  ∧ TableAPI.content_type (last_item (split "."%char path))
    = TableAPI.content_type path.
Proof.
  intros Hfree. rewrite last_piece_without_sep by exact Hfree. split; reflexivity.
Qed.

Lemma extension_without_dot_example :
  last_item (split "."%char "csv") = "csv"
  ∧ TableAPI.content_type (last_item (split "."%char "csv"))
    = TableAPI.content_type "csv".
Proof. apply (extension_without_dot "csv"). reflexivity. Defined.

(** For every path the extension [insert_table] takes is the end of the
    path, has no dot, and starts at the beginning of the path or right
    after a dot. *)
Theorem extension_is_last_piece (path : string) :
  ∃ before,
    path = before +:+ last_item (split "."%char path)
    ∧ occurs "."%char (last_item (split "."%char path)) = false
    ∧ (before = "" ∨ ∃ stem, before = stem +:+ ".").
Proof.
  destruct (cut_at_last_sep "."%char path) as [Hfree | (stem & ext & -> & Hext)].
  - exists "". rewrite last_piece_without_sep by exact Hfree.
    split; [reflexivity |]. split; [exact Hfree | left; reflexivity].
  - exists (stem +:+ ".").
    rewrite last_piece_after_sep by exact Hext.
    split; [apply append_sep_assoc |].
    split; [exact Hext | right; exists stem; reflexivity].
Qed.

(** ** [insert_table] and [self._post] *)

Lemma find_none_forallb {A : Type} (p q : A → bool) (l : list A) :
  (∀ x, q x = true → p x = false) →
  forallb q l = true → List.find p l = None.
Proof.
  intros Hpq. induction l as [| x l IH]; [reflexivity |].
  simpl. intros [Hx Hl]%andb_true_iff.
  rewrite (Hpq x Hx). apply IH, Hl.
Qed.

(** A call whose keywords the method declares, and that binds what the
    method requires, runs the body. *)
Lemma call_binds {A : Type} (f : pymethod A) (args : list kwarg) :
  binds f args = true → call f args = fn_body f args.
Proof.
  unfold binds, call. intros [Hdeclared Hbound]%andb_true_iff.
  rewrite (find_none_forallb
             (λ k, bool_decide (k ∉ fn_required f ++ fn_optional f))
             (λ k, bool_decide (k ∈ fn_required f ++ fn_optional f))
             (projT1 <$> args)); [| | exact Hdeclared].
  - rewrite (find_none_forallb
               (λ k, negb (kw_given k args)) (λ k, kw_given k args)
               (fn_required f)); [reflexivity | | exact Hbound].
    intros k Hk. rewrite Hk. reflexivity.
  - intros k Hk. apply bool_decide_eq_true_1 in Hk.
    apply bool_decide_eq_false_2. intros Hnot. exact (Hnot Hk).
Qed.

(** [insert_table] on a path that opens, when the call of [self._post]
    binds. *)
Lemma insert_table_via_run (self_post : pymethod json)
    (namespace table_name path : string) (w : world) :
  binds self_post (insert_table_kwargs namespace table_name path (next_fd w)) = true →
  files w path = None →
  TableAPI.insert_table_via self_post namespace table_name path w
  = ((fn_body self_post
        (insert_table_kwargs namespace table_name path (next_fd w))
        (record_open w)).1,
     record_closed (next_fd w)
       (fn_body self_post
          (insert_table_kwargs namespace table_name path (next_fd w))
          (record_open w)).2).
Proof.
  intros Hbinds Hopens.
  unfold TableAPI.insert_table_via.
  match goal with
  | |- context [with_open path ?body w] =>
      pose proof (with_open_closes path body w) as Hwith
  end.
  rewrite Hopens in Hwith. destruct Hwith as [Hres Hworld].
  apply injective_projections; [rewrite Hres | rewrite Hworld];
    unfold mbind, M_bind;
    fold (insert_table_kwargs namespace table_name path (next_fd w));
    rewrite (call_binds self_post _ Hbinds);
    destruct (fn_body self_post _ (record_open w)) as [[v | e] w'];
    reflexivity.
Qed.

Lemma readable_opens (w : world) (path : string) :
  readable w path = true ↔ files w path = None.
Proof.
  unfold readable. destruct (files w path); split; (discriminate || reflexivity).
Qed.

(** When [self._post] does take the keywords [route], [headers] and
    [data], [insert_table] on a readable path is that call and nothing
    more: it hands over the route, the [Content-Type] chosen from the
    extension and the open handle, returns or raises what the call returns
    or raises (the [except KeyError] clause guards a bare [return]), and
    closes the handle afterwards. *)
Theorem insert_table_via_binding (self_post : pymethod json)
    (namespace table_name path : string) (w : world) :
  binds self_post (insert_table_kwargs namespace table_name path (next_fd w)) = true →
  readable w path = true →
  TableAPI.insert_table_via self_post namespace table_name path w
  = ((fn_body self_post
        (insert_table_kwargs namespace table_name path (next_fd w))
        (record_open w)).1,
     record_closed (next_fd w)
       (fn_body self_post
          (insert_table_kwargs namespace table_name path (next_fd w))
          (record_open w)).2).
Proof.
  intros Hbinds Hreadable%readable_opens.
  apply insert_table_via_run; assumption.
Qed.

Lemma insert_table_via_binding_example :
  let w := answering (json_reply 200 JNull) (λ _, true) in
  TableAPI.insert_table_via (accepting_post (Ok (JObject {[ "rows_written" := JInt 2 ]})))
    "dune" "prices" "data.csv" w
  = ((fn_body (accepting_post (Ok (JObject {[ "rows_written" := JInt 2 ]})))
        (insert_table_kwargs "dune" "prices" "data.csv" (next_fd w))
        (record_open w)).1,
     record_closed (next_fd w)
       (fn_body (accepting_post (Ok (JObject {[ "rows_written" := JInt 2 ]})))
          (insert_table_kwargs "dune" "prices" "data.csv" (next_fd w))
          (record_open w)).2).
Proof.
  cbv zeta.
  apply (insert_table_via_binding
           (accepting_post (Ok (JObject {[ "rows_written" := JInt 2 ]})))
           "dune" "prices" "data.csv"
           (answering (json_reply 200 JNull) (λ _, true)));
    vm_compute; reflexivity.
Defined.


(** [insert_table] on the class as written leaks no handle: in a world
    whose open handles were all handed out before, the open handles after
    the call are those before it, and the next handle is fresh again. *)
Theorem insert_table_keeps_handles (self : client)
    (namespace table_name path : string) (w : world) :
  handles_fresh w →
  open_files (TableAPI.insert_table self namespace table_name path w).2
  = open_files w
  ∧ handles_fresh (TableAPI.insert_table self namespace table_name path w).2.
Proof.
  intros Hfresh. rewrite insert_table_run.
  destruct (files w path); [split; [reflexivity | exact Hfresh] |].
  assert (Hnew : next_fd w ∉ open_files w).
  { intros Hin. apply Hfresh in Hin. lia. }
  assert (Hsame : ({[ next_fd w ]} ∪ open_files w) ∖ {[ next_fd w ]} = open_files w).
  { apply set_eq. intros fd.
    rewrite elem_of_difference, elem_of_union, elem_of_singleton.
    split.
    - intros [[Heq | Hin] Hne]; [contradiction | exact Hin].
    - intros Hin. split; [right; exact Hin |].
      intros ->. contradiction. }
  split.
  - simpl. exact Hsame.
  - intros fd. simpl. rewrite Hsame. intros Hin. apply Hfresh in Hin. lia.
Qed.

Lemma insert_table_keeps_handles_example :
  let w := answering (json_reply 200 JNull) (λ _, true) in
  open_files (TableAPI.insert_table alice "dune" "prices" "data.csv" w).2
  = open_files w
  ∧ handles_fresh (TableAPI.insert_table alice "dune" "prices" "data.csv" w).2.
Proof.
  cbv zeta.
  apply (insert_table_keeps_handles alice "dune" "prices" "data.csv"
           (answering (json_reply 200 JNull) (λ _, true))).
  intros fd Hin. simpl in Hin. apply not_elem_of_empty in Hin. destruct Hin.
Defined.

(** The [headers] dictionary [insert_table] hands to [self._post] always
    has the key [Content-Type]: on a path that opens and a [self._post]
    that takes the keywords, the call [insert_table] makes is the one with
    the route, the handle and [{"Content-Type": content_type}], where
    [content_type] is [text/csv] exactly for the extension [csv],
    [application/x-ndjson] exactly for [json] and [jsonl], and [None]
    exactly for every other extension; so a path ending in [.csv] gets
    [text/csv], one ending in [.json] or [.jsonl] gets
    [application/x-ndjson], and one ending in an upper-case [.CSV] gets
    [None].  The key is never left out. *)
Theorem insert_table_headers_by_suffix (self_post : pymethod json)
    (namespace table_name path : string) (w : world) :
  binds self_post (insert_table_kwargs namespace table_name path (next_fd w)) = true →
  readable w path = true →
  ∃ content_type : option string,
    TableAPI.insert_table_via self_post namespace table_name path w
    = ((fn_body self_post
          [ kw kw_route ("/table/" +:+ namespace +:+ "/" +:+ table_name +:+ "/insert");
            kw kw_headers {[ "Content-Type" := content_type ]};
            kw kw_data (next_fd w) ]
          (record_open w)).1,
       record_closed (next_fd w)
         (fn_body self_post
            [ kw kw_route ("/table/" +:+ namespace +:+ "/" +:+ table_name +:+ "/insert");
              kw kw_headers {[ "Content-Type" := content_type ]};
              kw kw_data (next_fd w) ]
            (record_open w)).2)
    ∧ (content_type = Some "text/csv" ↔ last_item (split "."%char path) = "csv")
    ∧ (content_type = Some "application/x-ndjson"
       ↔ last_item (split "."%char path) = "json"
         ∨ last_item (split "."%char path) = "jsonl")
    ∧ (content_type = None
       ↔ last_item (split "."%char path) ∉ ["csv"; "json"; "jsonl"])
    ∧ (∀ stem, path = stem +:+ ".csv" → content_type = Some "text/csv")
    ∧ (∀ stem, path = stem +:+ ".json" ∨ path = stem +:+ ".jsonl" →
               content_type = Some "application/x-ndjson")
    ∧ (∀ stem, path = stem +:+ ".CSV" → content_type = None).
Proof.
  intros Hbinds Hreadable%readable_opens.
  exists (TableAPI.content_type (last_item (split "."%char path))).
  split; [apply (insert_table_via_run self_post _ _ _ _ Hbinds Hreadable) |].
  assert (Hsuffix : ∀ stem ext,
            occurs "."%char ext = false →
            path = stem +:+ String "."%char ext →
            TableAPI.content_type (last_item (split "."%char path))
            = TableAPI.content_type ext).
  { intros stem ext Hext ->. rewrite last_piece_after_sep by exact Hext. reflexivity. }
  destruct (content_type_cases (last_item (split "."%char path)))
    as (Hcsv & Hjson & Hother).
  unfold TableAPI.content_type in *.
  repeat split.
  - case_bool_decide as Hc; [intros _; exact Hc |].
    case_bool_decide; discriminate.
  - exact Hcsv.
  - case_bool_decide as Hc; [discriminate |].
    case_bool_decide as Hj; [| discriminate].
    intros _.
    apply elem_of_cons in Hj as [Hj | Hj]; [left; exact Hj |].
    apply elem_of_cons in Hj as [Hj | Hj]; [right; exact Hj |].
    apply elem_of_nil in Hj. destruct Hj.
  - exact Hjson.
  - case_bool_decide as Hc; [discriminate |].
    case_bool_decide as Hj; [discriminate |].
    intros _ Hin.
    apply elem_of_cons in Hin as [Hin | Hin]; [contradiction |].
    contradiction.
  - exact Hother.
  - intros stem Hpath. apply (Hsuffix stem "csv" eq_refl Hpath).
  - intros stem [Hpath | Hpath].
    + apply (Hsuffix stem "json" eq_refl Hpath).
    + apply (Hsuffix stem "jsonl" eq_refl Hpath).
  - intros stem Hpath. apply (Hsuffix stem "CSV" eq_refl Hpath).
Qed.

Lemma insert_table_headers_by_suffix_examples :
  (TableAPI.insert_table_via echoing_post "dune" "prices" "data.csv"
     (answering (json_reply 200 JNull) (λ _, true))).1
  = Ok (JStr "text/csv")
  ∧ (TableAPI.insert_table_via echoing_post "dune" "prices" "rows.jsonl"
       (answering (json_reply 200 JNull) (λ _, true))).1
    = Ok (JStr "application/x-ndjson")
  ∧ (TableAPI.insert_table_via echoing_post "dune" "prices" "DATA.CSV"
       (answering (json_reply 200 JNull) (λ _, true))).1
    = Ok JNull.
Proof.
  split; [| split].
  - destruct (insert_table_headers_by_suffix echoing_post "dune" "prices" "data.csv"
                (answering (json_reply 200 JNull) (λ _, true)) eq_refl eq_refl)
      as (content_type & -> & _ & _ & _ & Hcsv & _ & _).
    rewrite (Hcsv "data" eq_refl). reflexivity.
  - destruct (insert_table_headers_by_suffix echoing_post "dune" "prices" "rows.jsonl"
                (answering (json_reply 200 JNull) (λ _, true)) eq_refl eq_refl)
      as (content_type & -> & _ & _ & _ & _ & Hjson & _).
    rewrite (Hjson "rows" (or_intror eq_refl)). reflexivity.
  - destruct (insert_table_headers_by_suffix echoing_post "dune" "prices" "DATA.CSV"
                (answering (json_reply 200 JNull) (λ _, true)) eq_refl eq_refl)
      as (content_type & -> & _ & _ & _ & _ & _ & Hupper).
    rewrite (Hupper "DATA" eq_refl). reflexivity.
Defined.
